(** * docs/generate_md.py: packaging the design documents into a ZIP archive

    The script builds a dict of five Markdown documents (f-strings that splice
    the back-quote fence [BQ] into the text), opens a ZIP archive for writing,
    stores every document as a member and reports what it did on stdout.

    The embedding follows the script statement by statement.  Python values
    are modelled as follows.
    - [str]: a Rocq [string] holding the UTF-8 code units of the text, so
      that [str.encode("utf-8")] is the list of its bytes.  The characters the
      f-string scanner looks at (the two braces) are ASCII and never occur
      inside a multi-byte UTF-8 sequence.
    - [dict]: an association list in insertion order without repeated keys.
    - exceptions: the [Raise] branch of [result]; effects on the file system
      and on stdout are threaded through the state monad [M].
    - the environment (I/O faults, the wall clock) is an [Env] record that the
      theorems quantify over. *)

From Stdlib Require Import Strings.Ascii Strings.String Strings.Byte.
From stdpp Require Import gmap strings list fin_maps.

Set Default Proof Using "Type".

(** ** Python run-time values *)

Inductive exn : Type :=
  | NameError (name : string)
  | SyntaxError (msg : string)
  | IndexError (msg : string)
  | OSError (errno : nat) (strerror : string).

Inductive result (A : Type) : Type :=
  | Ok (a : A)
  | Raise (e : exn).
Arguments Ok {A} a.
Arguments Raise {A} e.

Definition result_map {A B} (f : A -> B) (r : result A) : result B :=
  match r with
  | Ok a => Ok (f a)
  | Raise e => Raise e
  end.

(** The double-quote character and the empty line, for the document text. *)
Definition Q : string := String "034"%char EmptyString.
Definition blank : string := EmptyString.
Definition newline : ascii := "010"%char.

(** A triple-quoted literal written line by line: every source line is
    followed by its newline. *)
Definition unlines (ls : list string) : string :=
  foldr (fun l acc => l +:+ String newline acc) EmptyString ls.

(** [str.encode("utf-8")] on the UTF-8 representation of [str]. *)
Definition encode_utf8 (s : string) : list byte := list_byte_of_string s.

(** *** f-strings

    A formatted string literal is a sequence of literal pieces and
    replacement fields.  In literal text a doubled brace stands for one
    brace, a single opening brace starts a field that runs to the next
    closing brace, and a single closing brace is a syntax error.  The
    expressions of the script are all plain names ([BQ], [zip_filename],
    [filename]); the text of a field is therefore looked up as a name, with
    [NameError] when it is unbound.  Conversions, format specifications,
    compound expressions and the backslash escapes of the literal do not
    occur in the texts of the script and are not modelled. *)

Inductive part : Type :=
  | Literal (s : string)
  | Replacement (expr : string).

Definition push_char (c : ascii) (ps : list part) : list part :=
  match ps with
  | Literal s :: ps' => Literal (String c s) :: ps'
  | _ => Literal (String c EmptyString) :: ps
  end.

Definition err_single_brace : exn :=
  SyntaxError "f-string: single '}' is not allowed".
Definition err_expecting_brace : exn :=
  SyntaxError "f-string: expecting '}'".
Definition err_empty_expression : exn :=
  SyntaxError "f-string: empty expression not allowed".

(** [scan fld s]: [fld = None] while reading literal text, [fld = Some acc]
    inside a replacement field whose expression read so far is [acc]. *)
Fixpoint scan (fld : option string) (s : string) {struct s} : result (list part) :=
  match s with
  | EmptyString =>
      match fld with
      | None => Ok []
      | Some _ => Raise err_expecting_brace
      end
  | String c r =>
      match fld with
      | Some acc =>
          if Ascii.eqb c "}" then
            match acc with
            | EmptyString => Raise err_empty_expression
            | _ => result_map (cons (Replacement acc)) (scan None r)
            end
          else scan (Some (acc +:+ String c EmptyString)) r
      | None =>
          if Ascii.eqb c "{" then
            match r with
            | String c' r' =>
                if Ascii.eqb c' "{" then result_map (push_char "{") (scan None r')
                else scan (Some EmptyString) r
            | EmptyString => Raise err_expecting_brace
            end
          else if Ascii.eqb c "}" then
            match r with
            | String c' r' =>
                if Ascii.eqb c' "}" then result_map (push_char "}") (scan None r')
                else Raise err_single_brace
            | EmptyString => Raise err_single_brace
            end
          else result_map (push_char c) (scan None r)
      end
  end.

Definition parse_fstring (s : string) : result (list part) := scan None s.

(** The variables of the script that hold a [str]. *)
Abbreviation namespace := (gmap string string).

Fixpoint eval_parts (ns : namespace) (ps : list part) : result string :=
  match ps with
  | [] => Ok EmptyString
  | Literal s :: ps' => result_map (String.append s) (eval_parts ns ps')
  | Replacement x :: ps' =>
      match ns !! x with
      | Some v => result_map (String.append v) (eval_parts ns ps')
      | None => Raise (NameError x)
      end
  end.

Definition fstring (ns : namespace) (s : string) : result string :=
  match parse_fstring s with
  | Ok ps => eval_parts ns ps
  | Raise e => Raise e
  end.

(** *** dict

    Insertion-ordered; assigning to a key that is present replaces its value
    and keeps its position. *)
Abbreviation dict := (list (string * string)).

Fixpoint dict_setitem (k v : string) (d : dict) : dict :=
  match d with
  | [] => [(k, v)]
  | (k', v') :: d' =>
      if String.eqb k k' then (k', v) :: d' else (k', v') :: dict_setitem k v d'
  end.

(** A dict display [{k1: f"...", k2: f"...", ...}]: the items are evaluated
    and stored from left to right; the only way it can raise is through the
    evaluation of a value. *)
Fixpoint dict_display_from (ns : namespace) (kvs : list (string * string)) (d : dict)
  : result dict :=
  match kvs with
  | [] => Ok d
  | (k, tpl) :: rest =>
      match fstring ns tpl with
      | Ok v => dict_display_from ns rest (dict_setitem k v d)
      | Raise e => Raise e
      end
  end.

Definition dict_display (ns : namespace) (kvs : list (string * string)) : result dict :=
  dict_display_from ns kvs [].

Fixpoint dict_getitem (k : string) (d : dict) : option string :=
  match d with
  | [] => None
  | (k', v) :: d' => if String.eqb k k' then Some v else dict_getitem k d'
  end.

Definition items (d : dict) : list (string * string) := d.
Definition keys (d : dict) : list string := d.*1.

(** ** The document text (lines 8-175 of the script) *)

(** Source lines 8-26: the f-string under key [README.md], one element per
    source line; every line, the last one too, ends with a newline. *)
Definition tpl_README_md : list string := [
  "# Local Sync Board (Cloud Edition)";
  blank;
  "## 🎯 プロジェクト概要";
  "アナログゲーム（麻雀、ボードゲーム等）の「点数・変数管理」を、スマートフォン同士でリアルタイムに同期するサポートアプリです。";
  "Supabase (BaaS) をバックエンドに採用し、QRコードやルームIDによる手軽なマルチプレイ環境を提供します。";
  blank;
  "## ✨ 特徴";
  "1. **クラウドリアルタイム同期:** インターネット経由で、遅延なく全員のスコアが同期されます。";
  "2. **Master-Clientモデル:**";
  "    * **親機:** ルーム作成、ゲームのルール（計算式・UI）定義。";
  "    * **子機:** ルームに参加し、自分のスコアを操作。";
  "3. **柔軟なテンプレート:** 麻雀、人生ゲームなど、ゲームに合わせた「ボード」を自由に作成・保存可能。";
  blank;
  "## 🛠 技術スタック";
  "* **Frontend:** React Native (Expo) / TypeScript";
  "* **Backend:** Supabase (PostgreSQL / Realtime)";
  "* **Auth:** Supabase Auth (Anonymous Login / 匿名認証)";
  "* **State Management:** React Query or Context API"
].

(** Source lines 28-60: the f-string under key [01_Requirements.md], one element per
    source line; every line, the last one too, ends with a newline. *)
Definition tpl_01_Requirements_md : list string := [
  "# 要件定義書 (System Requirements Specification)";
  blank;
  "## 1. システムの目的";
  "複数のスマートフォン間で、ゲームの進行状況（スコア、ステータス）をインターネット経由でリアルタイム共有する。";
  blank;
  "## 2. スコープ定義";
  blank;
  "### 2.1 In Scope (対象範囲)";
  "* **インターネット通信:** Wi-Fi または モバイルデータ通信を利用。";
  "* **ルーム管理:**";
  "    * 親機によるルーム作成（Room ID生成）。";
  "    * 子機によるRoom ID入力（またはQR読み取り）での参加。";
  "* **ボード作成 (Builder):** 親機によるUI配置、変数定義、計算ロジックの定義。";
  "* **リアルタイム同期:** Supabase Realtimeを利用したミリ秒単位の状態反映。";
  "* **匿名利用:** アカウント登録不要で、アプリを開けばすぐ使える（匿名認証）。";
  blank;
  "### 2.2 Out of Scope (対象外)";
  "* **完全オフライン動作:** 圏外では動作しない（エラー表示を行う）。";
  "* **複雑な権限管理:** ルーム内のユーザーは善意のプレイヤーであると仮定し、厳密なチート対策は行わない。";
  "* **過去ログの永続保存:** ゲーム終了後、一定期間でルームデータは削除される（エフェメラルな利用）。";
  blank;
  "## 3. 機能要件 (Functional Requirements)";
  blank;
  "* **[FR-01] ルーム作成と接続:**";
  "    * 親機はユニークな「Room ID」を発行する。";
  "    * 子機はそのIDを入力することで、特定のセッション（DBの行）を購読(Subscribe)する。";
  "* **[FR-02] ボードテンプレート:**";
  "    * 親機は「麻雀用」「ボードゲーム用」などの設定をJSON形式でDBに保存し、呼び出せること。";
  "* **[FR-03] 状態同期:**";
  "    * 誰かが数値を更新したら、即座に全員の画面に反映されること（Supabase Realtime）。";
  "* **[FR-04] データ永続化:**";
  "    * アプリをタスクキルしても、サーバー上にデータがある限り復帰できること。"
].

(** Source lines 62-87: the f-string under key [02_Basic_Design.md], one element per
    source line; every line, the last one too, ends with a newline. *)
Definition tpl_02_Basic_Design_md : list string := [
  "# 基本設計書 (Basic Design - UI/UX)";
  blank;
  "## 1. 画面フロー";
  blank;
  "| ID | 画面名 | 役割 | 備考 |";
  "|:---|:---|:---|:---|";
  "| **S-01** | **Home / Lobby** | スタート画面 | 親機：「部屋を作る」 / 子機：「部屋に入る」 |";
  "| **S-02** | **Game Board** | メイン画面 | 全員のスコア表示。ここからアクション(S-03)へ。 |";
  "| **S-03** | **Action Modal** | 入力パネル | 数値入力、アクション実行（モーダル表示）。 |";
  "| **S-04** | **Builder / Settings** | 設定画面 | 親機専用。レイアウト編集、リセット操作。 |";
  blank;
  "## 2. 詳細UX";
  blank;
  "### S-01: Home / Lobby";
  "* シンプルな2択ボタンを表示。";
  "* **Join (子機):** 4桁〜6桁のルームID入力フォーム、またはカメラ起動ボタン（QR用）。";
  "* **Create (親機):** 新規作成ボタン。押下時にSupabaseにレコードを作成し、S-02へ遷移。";
  blank;
  "### S-02: Game Board";
  "* Supabaseからの変更通知を受け取り、自動で再描画される。";
  "* ヘッダーに「Room ID」を表示し、タップでコピー/QR表示可能にする。";
  blank;
  "### S-04: Builder (親機のみ)";
  "* プリセット（麻雀など）の選択リスト。";
  "* 「変数の追加」「ボタンの追加」を行い、DBの `template` カラムを更新する。"
].

(** Source lines 89-153: the f-string under key [03_Data_Model.md], one element per
    source line; every line, the last one too, ends with a newline. *)
Definition tpl_03_Data_Model_md : list string := [
  "# データモデル設計書 (Supabase Schema)";
  blank;
  "## 1. テーブル構成";
  "PostgreSQLのテーブルとして以下を作成する。";
  blank;
  "### 1.1 rooms (ゲームセッション)";
  "1つのゲームプレイの単位。";
  blank;
  "| Column | Type | Note |";
  "|:---|:---|:---|";
  "| `id` | uuid | Primary Key |";
  "| `room_code` | text | 参加用ショートコード (e.g. " +:+ Q +:+ "1234" +:+ Q +:+ ") |";
  "| `host_user_id` | uuid | 親機のUser ID (Supabase Auth) |";
  "| `status` | text | " +:+ Q +:+ "waiting" +:+ Q +:+ ", " +:+ Q +:+ "playing" +:+ Q +:+ ", " +:+ Q +:+ "finished" +:+ Q +:+ " |";
  "| `template` | jsonb | ボード定義（レイアウト、計算ロジック） |";
  "| `current_state` | jsonb | 全プレイヤーの現在スコア |";
  "| `created_at` | timestamp | |";
  blank;
  "### 1.2 profiles (ユーザー/端末情報)";
  "匿名認証で生成されたユーザー情報。";
  blank;
  "| Column | Type | Note |";
  "|:---|:---|:---|";
  "| `id` | uuid | Supabase Auth ID (PK) |";
  "| `display_name` | text | ニックネーム |";
  "| `current_room_id` | uuid | 参加中のルーム (FK: rooms.id) |";
  blank;
  "## 2. JSON構造 (jsonbカラムの中身)";
  blank;
  "### template (定義)";
  "親機が設定する「ゲームのルール」。";
  "{BQ}json";
  "{{";
  "  " +:+ Q +:+ "variables" +:+ Q +:+ ": [";
  "    {{ " +:+ Q +:+ "key" +:+ Q +:+ ": " +:+ Q +:+ "score" +:+ Q +:+ ", " +:+ Q +:+ "label" +:+ Q +:+ ": " +:+ Q +:+ "点数" +:+ Q +:+ ", " +:+ Q +:+ "initial" +:+ Q +:+ ": 25000 }},";
  "    {{ " +:+ Q +:+ "key" +:+ Q +:+ ": " +:+ Q +:+ "coins" +:+ Q +:+ ", " +:+ Q +:+ "label" +:+ Q +:+ ": " +:+ Q +:+ "コイン" +:+ Q +:+ ", " +:+ Q +:+ "initial" +:+ Q +:+ ": 0 }}";
  "  ],";
  "  " +:+ Q +:+ "actions" +:+ Q +:+ ": [";
  "    {{ " +:+ Q +:+ "label" +:+ Q +:+ ": " +:+ Q +:+ "リーチ" +:+ Q +:+ ", " +:+ Q +:+ "calc" +:+ Q +:+ ": " +:+ Q +:+ "score - 1000" +:+ Q +:+ " }}";
  "  ]";
  "}}";
  "{BQ}";
  blank;
  "### current_state (値)";
  "全プレイヤーの現在の値。`template` の `variables` で定義されたキーを持つ。";
  "{BQ}json";
  "{{";
  "  " +:+ Q +:+ "user_uuid_A" +:+ Q +:+ ": {{";
  "    " +:+ Q +:+ "score" +:+ Q +:+ ": 24000,";
  "    " +:+ Q +:+ "coins" +:+ Q +:+ ": 0,";
  "    " +:+ Q +:+ "_status" +:+ Q +:+ ": " +:+ Q +:+ "ready" +:+ Q +:+ " ";
  "  }},";
  "  " +:+ Q +:+ "user_uuid_B" +:+ Q +:+ ": {{";
  "    " +:+ Q +:+ "score" +:+ Q +:+ ": 25000,";
  "    " +:+ Q +:+ "coins" +:+ Q +:+ ": 0,";
  "    " +:+ Q +:+ "_status" +:+ Q +:+ ": " +:+ Q +:+ "thinking" +:+ Q;
  "  }}";
  "}}";
  "{BQ}";
  "※ `_` (アンダースコア) 始まりのキーは、テンプレートに依存しないシステム用ステータスとする。";
  blank;
  "## 3. セキュリティポリシー (RLS)";
  "* **rooms:** `room_code` を知っているユーザーは `SELECT` (参照) 可能。";
  "* **update:** 参加者は `current_state` カラムを `UPDATE` 可能（またはPostgres Function経由で更新）。"
].

(** Source lines 155-175: the f-string under key [04_Tech_Architecture.md], one element per
    source line; every line, the last one too, ends with a newline. *)
Definition tpl_04_Tech_Architecture_md : list string := [
  "# 技術構成書 (Technical Architecture)";
  blank;
  "## 1. 技術選定理由";
  "* **Platform:** React Native (Expo)";
  "    * iOS/Android両対応、開発速度が速い。";
  "* **Backend:** Supabase";
  "    * **Database:** PostgreSQL (堅牢なデータ管理)。";
  "    * **Realtime:** DBの変更をWebSocketで即座にクライアントへPushする機能が標準装備されており、自前でのSocket実装が不要。";
  "    * **Auth:** 匿名認証 (Anonymous Login) が標準で使え、面倒な登録フォームを作らなくて良い。";
  blank;
  "## 2. 同期フロー (Sync Strategy)";
  blank;
  "1. **Change:** ユーザーがボタンを押す。";
  "2. **Update:** クライアントが Supabase JS SDK を使い、`rooms` テーブルの `current_state` を更新する。";
  "3. **Broadcast:** Supabase が変更を検知し、同じルームを購読している全端末へパッチを配信。";
  "4. **Reflect:** 各端末の画面が自動更新される。";
  blank;
  "## 3. オフライン/エラーハンドリング";
  "* 通信切断時は、画面に「接続中...」のトーストを表示し、操作をブロックする（不整合防止）。";
  "* 再接続時に最新の `current_state` をフェッチし、同期し直す。"
].

(** ** The [zipfile] module

    What the script uses of it: [ZipFile(file, 'w')] as a context manager
    and [ZipFile.writestr(arcname, data)].  A member is recorded with its
    normalised name, the wall-clock time of the call, the compression method
    of the archive and the encoded data.  On disk an archive is the sequence
    of member records written so far plus, once [close] has run, the central
    directory that readers use to list and find members. *)

Definition ZIP_STORED : nat := 0.
Definition ZIP_DEFLATED : nat := 8.

Record ZipInfo : Type := mkZipInfo {
  zi_filename : string;
  zi_date_time : nat;
  zi_compress_type : nat;
  zi_data : list byte
}.

(** A file as far as the script and a reader of the archive are concerned:
    [records] in the order in which they were written, and [directory] set
    by [close] ([None] for a file that is not, or not yet, a readable
    archive). *)
Record ZipOnDisk : Type := mkZipOnDisk {
  records : list ZipInfo;
  directory : option (list ZipInfo)
}.

(** The object bound by [as zipf]. *)
Record ZipFile : Type := mkZipFile {
  zf_filename : string;
  zf_compression : nat
}.

(** The part of the world the script acts on: the files of the working
    directory by name, and the lines printed so far. *)
Record World : Type := mkWorld {
  fs : gmap string ZipOnDisk;
  stdout : list string
}.

(** The environment of a run.  [open_fault file] is the error, if any, of
    creating [file] for writing; [write_fault n] the error, if any, of
    storing the member that would be number [n] of the archive;
    [close_fault file] the error, if any, of writing the central directory;
    [localtime n] the clock reading when member number [n] is stored.  The
    faults are given by the environment, not derived from what the
    directory holds. *)
Record Env : Type := mkEnv {
  open_fault : string -> option exn;
  write_fault : nat -> option exn;
  close_fault : string -> option exn;
  localtime : nat -> nat
}.

(** State and exceptions: the state survives a raised exception. *)
Definition M (A : Type) : Type := World -> World * result A.

Definition ret {A} (a : A) : M A := fun w => (w, Ok a).
Definition bind {A B} (m : M A) (k : A -> M B) : M B :=
  fun w =>
    match m w with
    | (w', Ok a) => k a w'
    | (w', Raise e) => (w', Raise e)
    end.
Definition lift {A} (r : result A) : M A := fun w => (w, r).

Declare Scope prog_scope.
Delimit Scope prog_scope with prog.
Bind Scope prog_scope with M.
Notation "x <- c1 ;; c2" := (bind c1 (fun x => c2))
  (at level 100, c1 at next level, c2 at level 200, right associativity) : prog_scope.
Notation "c1 ;; c2" := (bind c1 (fun _ => c2))
  (at level 100, c2 at level 200, right associativity) : prog_scope.
Open Scope prog_scope.

(** [print(s)]: one line on stdout; writing to stdout is taken to
    succeed. *)
Definition print (s : string) : M unit :=
  fun w => (mkWorld (fs w) (stdout w ++ [s]), Ok tt).

(** [ZipInfo.__init__]: the name stops at the first NUL character. *)
Fixpoint until_nul (s : string) : string :=
  match s with
  | EmptyString => EmptyString
  | String c r => if Ascii.eqb c zero then EmptyString else String c (until_nul r)
  end.

(** [zipfile.ZipFile(file, 'w')], [compression] left at its default
    [ZIP_STORED]: the file is created, or truncated when it exists. *)
Definition ZipFile_w (E : Env) (file : string) : M ZipFile :=
  fun w =>
    match open_fault E file with
    | Some e => (w, Raise e)
    | None =>
        (mkWorld (<[file := mkZipOnDisk [] None]> (fs w)) (stdout w),
         Ok (mkZipFile file ZIP_STORED))
    end.

Definition on_disk (zipf : ZipFile) (w : World) : ZipOnDisk :=
  default (mkZipOnDisk [] None) (fs w !! zf_filename zipf).

(** [zipf.writestr(arcname, data)] with [data] a [str]: the text is encoded
    as UTF-8, the member takes the compression method of the archive (no
    [compress_type] is passed) and is appended after the members already
    written.  An empty name makes [zinfo.filename[-1]] raise [IndexError];
    [write_fault] stands for an error raised while the member is written.
    The model then leaves the member out of the file; the library can still
    list a member whose data could not be written in full. *)
Definition writestr (E : Env) (zipf : ZipFile) (arcname data : string) : M unit :=
  fun w =>
    let f := on_disk zipf w in
    let zinfo := mkZipInfo (until_nul arcname) (localtime E (length (records f)))
                   (zf_compression zipf) (encode_utf8 data) in
    match zi_filename zinfo with
    | EmptyString => (w, Raise (IndexError "string index out of range"))
    | _ =>
        match write_fault E (length (records f)) with
        | Some e => (w, Raise e)
        | None =>
            (mkWorld (<[zf_filename zipf := mkZipOnDisk (records f ++ [zinfo]) (directory f)]> (fs w))
               (stdout w),
             Ok tt)
        end
    end.

(** [zipf.close()]: writes the central directory of the members stored.
    When [close] raises, the model leaves the file without central
    directory; the library can also raise after the directory has reached
    the file. *)
Definition ZipFile_close (E : Env) (zipf : ZipFile) : M unit :=
  fun w =>
    match close_fault E (zf_filename zipf) with
    | Some e => (w, Raise e)
    | None =>
        let f := on_disk zipf w in
        (mkWorld (<[zf_filename zipf := mkZipOnDisk (records f) (Some (records f))]> (fs w))
           (stdout w),
         Ok tt)
    end.

(** [with zipfile.ZipFile(file, 'w') as zipf: body].  [__exit__] closes the
    archive whether or not the body raised, and does not swallow the
    exception; an exception of [close] itself replaces the pending one. *)
Definition with_ZipFile_w {A} (E : Env) (file : string) (body : ZipFile -> M A) : M A :=
  fun w =>
    match ZipFile_w E file w with
    | (w1, Raise e) => (w1, Raise e)
    | (w1, Ok zipf) =>
        match body zipf w1 with
        | (w2, r) =>
            match ZipFile_close E zipf w2 with
            | (w3, Ok _) => (w3, r)
            | (w3, Raise e') => (w3, Raise e')
            end
        end
    end.

(** ** The script

    The two [import] statements of lines 1-2 have no effect of their own. *)

(** Line 5. *)
Definition BQ : string := "```".

(** Lines 7-176: the dict display bound to [files_content], keys and
    f-string bodies in source order. *)
Definition files_content_display : list (string * string) := [
  ("README.md", unlines tpl_README_md);
  ("01_Requirements.md", unlines tpl_01_Requirements_md);
  ("02_Basic_Design.md", unlines tpl_02_Basic_Design_md);
  ("03_Data_Model.md", unlines tpl_03_Data_Model_md);
  ("04_Tech_Architecture.md", unlines tpl_04_Tech_Architecture_md)
].

(** The str variables in scope while the display is evaluated. *)
Definition globals_5 : namespace := {[ "BQ" := BQ ]}.

Definition files_content : result dict := dict_display globals_5 files_content_display.

(** Line 179. *)
Definition zip_filename : string := "Local_Sync_Board_Cloud_Docs.zip".

Definition globals_179 : namespace := <["zip_filename" := zip_filename]> globals_5.

(** [print(f"...")]. *)
Definition print_f (ns : namespace) (tpl : string) : M unit :=
  s <- lift (fstring ns tpl) ;; print s.

(** Lines 183-185: the body of the [for] loop, run for every item.  The
    loop variables stay bound in the namespace, which the loop returns. *)
Fixpoint for_items (E : Env) (ns : namespace) (zipf : ZipFile)
    (its : list (string * string)) : M namespace :=
  match its with
  | [] => ret ns
  | (filename, content) :: rest =>
      let ns' := <["content" := content]> (<["filename" := filename]> ns) in
      writestr E zipf filename content ;;
      print_f ns' " - Added: {filename}" ;;
      for_items E ns' zipf rest
  end.

(** Lines 180-187.  The registry is a parameter here so that these
    statements can be studied for any dict; [main] runs them on
    [files_content]. *)
Definition emit (E : Env) (d : dict) : M unit :=
  print_f globals_179 "Creating {zip_filename}..." ;;
  ns <- with_ZipFile_w E zip_filename (fun zipf =>
          for_items E globals_179 zipf (items d)) ;;
  print_f ns "Done! '{zip_filename}' has been created.".

Definition main (E : Env) : M unit :=
  d <- lift files_content ;;
  emit E d.

(** A process starts with nothing on its stdout. *)
Definition boot (fs0 : gmap string ZipOnDisk) : World := mkWorld fs0 [].

Definition run (E : Env) (fs0 : gmap string ZipOnDisk) : World * result unit :=
  main E (boot fs0).

(** ** Observations used in the statements *)

(** The environment in which nothing goes wrong. *)
Definition quiet (time0 : nat) : Env :=
  mkEnv (fun _ => None) (fun _ => None) (fun _ => None) (fun n => time0 + n).

(** The registry the script builds (see [files_content_ok]). *)
Definition registry : dict :=
  match files_content with
  | Ok d => d
  | Raise _ => []
  end.

(** What [namelist()] and [read(name)] of a reader give for [file]: the
    members of the central directory. *)
Definition archive (w : World) (file : string) : option (list ZipInfo) :=
  fs w !! file ≫= directory.

Definition namelist (w : World) (file : string) : option (list string) :=
  map zi_filename <$> archive w file.

Definition archive_entries (w : World) (file : string) : option (list (string * list byte)) :=
  map (fun z => (zi_filename z, zi_data z)) <$> archive w file.

(** The error of storing [arcname] as member number [n], if any. *)
Definition write_error (E : Env) (n : nat) (arcname : string) : option exn :=
  match until_nul arcname with
  | EmptyString => Some (IndexError "string index out of range")
  | _ => write_fault E n
  end.

(** The items that the loop stores before it stops, and how it stops. *)
Fixpoint stored (E : Env) (n : nat) (its : list (string * string))
  : list (string * string) * result unit :=
  match its with
  | [] => ([], Ok tt)
  | (k, v) :: rest =>
      match write_error E n k with
      | Some e => ([], Raise e)
      | None => let '(wrote, r) := stored E (S n) rest in ((k, v) :: wrote, r)
      end
  end.

(** The member records of items stored one after the other from number [n]. *)
Fixpoint stamp (E : Env) (n : nat) (its : list (string * string)) : list ZipInfo :=
  match its with
  | [] => []
  | (k, v) :: rest =>
      mkZipInfo (until_nul k) (localtime E n) ZIP_STORED (encode_utf8 v)
        :: stamp E (S n) rest
  end.

(** The namespace after the loop has run over [its]. *)
Definition bind_items (ns : namespace) (its : list (string * string)) : namespace :=
  foldl (fun ns kv => <["content" := kv.2]> (<["filename" := kv.1]> ns)) ns its.

Definition creating_line : string := "Creating Local_Sync_Board_Cloud_Docs.zip...".
Definition progress_line (name : string) : string := " - Added: " +:+ name.
Definition done_line : string := "Done! 'Local_Sync_Board_Cloud_Docs.zip' has been created.".

Definition is_compressed (z : ZipInfo) : bool :=
  negb (Nat.eqb (zi_compress_type z) ZIP_STORED).

(** *** Text observations *)

(** Number of positions of [s] at which [p] starts. *)
Fixpoint count_sub (p s : string) : nat :=
  match s with
  | EmptyString => 0
  | String _ r => (if String.prefix p s then 1 else 0) + count_sub p r
  end.

Definition contains (p s : string) : bool := negb (Nat.eqb (count_sub p s) 0).

Definition has_path_sep (s : string) : bool :=
  contains "/" s || contains "\" s.

(** The lines of a text; [cur] is the line being read.  A text that ends
    with a newline has no further, empty line. *)
Fixpoint split_lines_from (cur : string) (s : string) : list string :=
  match s with
  | EmptyString => match cur with EmptyString => [] | _ => [cur] end
  | String c r =>
      if Ascii.eqb c newline then cur :: split_lines_from EmptyString r
      else split_lines_from (cur +:+ String c EmptyString) r
  end.

Definition split_lines (s : string) : list string := split_lines_from EmptyString s.

Definition drop_chars (n : nat) (s : string) : string :=
  String.substring n (String.length s - n) s.

(** The fenced code blocks of a Markdown text as (info string, body lines);
    a fence is a line that starts with three back-quotes. *)
Fixpoint fenced_from (cur : option (string * list string)) (ls : list string)
  : list (string * list string) :=
  match ls with
  | [] => []
  | l :: rest =>
      match cur with
      | None =>
          if String.prefix "```" l then fenced_from (Some (drop_chars 3 l, [])) rest
          else fenced_from None rest
      | Some (info, body) =>
          if String.prefix "```" l then (info, body) :: fenced_from None rest
          else fenced_from (Some (info, body ++ [l])) rest
      end
  end.

Definition fenced_blocks (s : string) : list (string * list string) :=
  fenced_from None (split_lines s).

(** *** The intended text of a document

    The reading of the specification: the text as authored, in which every
    occurrence of the token [{BQ}] stands for three back-quotes and a
    doubled brace stands for one brace. *)
Fixpoint replace_token (s : string) : string :=
  match s with
  | EmptyString => EmptyString
  | String a r1 =>
      match r1 with
      | String b (String c (String d r4)) =>
          if Ascii.eqb a "{" && Ascii.eqb b "B" && Ascii.eqb c "Q" && Ascii.eqb d "}"
          then "```" +:+ replace_token r4
          else String a (replace_token r1)
      | _ => String a (replace_token r1)
      end
  end.

Fixpoint unescape_braces (s : string) : string :=
  match s with
  | EmptyString => EmptyString
  | String a r1 =>
      match r1 with
      | String b r2 =>
          if Ascii.eqb a b && (Ascii.eqb a "{" || Ascii.eqb a "}")
          then String a (unescape_braces r2)
          else String a (unescape_braces r1)
      | EmptyString => String a EmptyString
      end
  end.

Definition intended_text (tpl : string) : string := unescape_braces (replace_token tpl).

(** The outcome of lines 180-187 on a registry [d], written without the
    monad (see [emit_outcome_correct]). *)
Definition emit_outcome (E : Env) (d : dict) (w : World) : World * result unit :=
  let out0 := stdout w ++ [creating_line] in
  match open_fault E zip_filename with
  | Some e => (mkWorld (fs w) out0, Raise e)
  | None =>
      let '(wrote, r) := stored E 0 d in
      let out1 := out0 ++ map (fun kv => progress_line kv.1) wrote in
      match close_fault E zip_filename with
      | Some e' =>
          (mkWorld (<[zip_filename := mkZipOnDisk (stamp E 0 wrote) None]> (fs w)) out1,
           Raise e')
      | None =>
          let fs1 := <[zip_filename :=
                         mkZipOnDisk (stamp E 0 wrote) (Some (stamp E 0 wrote))]> (fs w) in
          match r with
          | Ok _ => (mkWorld fs1 (out1 ++ [done_line]), Ok tt)
          | Raise e => (mkWorld fs1 out1, Raise e)
          end
      end
  end.

(** *** Concrete environments and runs used as examples *)

(** A fault-free run on an empty directory. *)
Definition quiet_world : World := (run (quiet 0) ∅).1.

(** A later fault-free run in the directory the first one left. *)
Definition second_world : World := (run (quiet 100) (fs quiet_world)).1.

(** The directory cannot be written: creating the archive fails. *)
Definition EACCES : exn := OSError 13 "Permission denied".
Definition read_only : Env :=
  mkEnv (fun _ => Some EACCES) (fun _ => None) (fun _ => None) (fun n => n).

(** The disk fills up while the third member is stored. *)
Definition ENOSPC : exn := OSError 28 "No space left on device".
Definition disk_full : Env :=
  mkEnv (fun _ => None) (fun n => if Nat.eqb n 2 then Some ENOSPC else None)
    (fun _ => None) (fun n => n).

(** A dict display that repeats a name. *)
Definition duplicate_display : list (string * string) :=
  [("README.md", "first"); ("README.md", "second")].

Definition read_only_world : World := (run read_only ∅).1.
Definition disk_full_world : World := (run disk_full ∅).1.

(** * Properties *)

(** ** Strings and f-strings *)

Lemma append_empty_r (s : string) : s +:+ EmptyString = s.
Proof.
  induction s as [|c s IH]; [done|].
  change (String c (s +:+ EmptyString) = String c s). by rewrite IH.
Qed.

Lemma parse_added : parse_fstring " - Added: {filename}"
  = Ok [Literal " - Added: "; Replacement "filename"].
Proof. reflexivity. Qed.

Lemma fstring_added (ns : namespace) (f c : string) :
  fstring (<["content" := c]> (<["filename" := f]> ns)) " - Added: {filename}"
  = Ok (progress_line f).
Proof.
  unfold fstring. rewrite parse_added. cbn [eval_parts].
  rewrite lookup_insert_ne by done. rewrite lookup_insert_eq.
  cbn [result_map]. by rewrite append_empty_r.
Qed.

Lemma fstring_creating : fstring globals_179 "Creating {zip_filename}..." = Ok creating_line.
Proof. vm_compute. reflexivity. Qed.

Lemma parse_done : parse_fstring "Done! '{zip_filename}' has been created."
  = Ok [Literal "Done! '"; Replacement "zip_filename"; Literal "' has been created."].
Proof. reflexivity. Qed.

Lemma fstring_done (ns : namespace) :
  ns !! "zip_filename" = Some zip_filename →
  fstring ns "Done! '{zip_filename}' has been created." = Ok done_line.
Proof. intros Hz. unfold fstring. rewrite parse_done. cbn [eval_parts]. by rewrite Hz. Qed.

Lemma bind_items_zip_filename (ns : namespace) (its : list (string * string)) :
  bind_items ns its !! "zip_filename" = ns !! "zip_filename".
Proof.
  revert ns. induction its as [|[k v] its IH]; intros ns; [done|].
  unfold bind_items in *. cbn [foldl fst snd]. rewrite IH.
  by rewrite !lookup_insert_ne.
Qed.

(** ** dict *)

Lemma dict_setitem_keys (k v : string) (d : dict) :
  keys (dict_setitem k v d) = if decide (k ∈ keys d) then keys d else keys d ++ [k].
Proof.
  unfold keys. induction d as [|[k' v'] d IH]; [done|].
  cbn [dict_setitem]. rewrite fmap_cons. cbn [fst].
  destruct (String.eqb_spec k k') as [->|Hne].
  - rewrite fmap_cons. cbn [fst]. by rewrite decide_True by left.
  - rewrite fmap_cons, IH. cbn [fst]. destruct (decide (k ∈ d.*1)) as [Hin|Hin].
    + by rewrite decide_True by (by right).
    + rewrite decide_False; [done|]. by intros [?|?]%elem_of_cons.
Qed.

Lemma dict_setitem_NoDup (k v : string) (d : dict) :
  NoDup (keys d) → NoDup (keys (dict_setitem k v d)).
Proof.
  intros Hd. rewrite dict_setitem_keys. case_decide; [done|].
  apply NoDup_app. split_and!; [done| |apply NoDup_singleton].
  intros x Hx ->%list_elem_of_singleton. done.
Qed.

Lemma dict_getitem_setitem_eq (k v : string) (d : dict) :
  dict_getitem k (dict_setitem k v d) = Some v.
Proof.
  induction d as [|[k' v'] d IH]; simpl.
  - by rewrite String.eqb_refl.
  - destruct (String.eqb_spec k k') as [->|Hne]; simpl.
    + by rewrite String.eqb_refl.
    + by rewrite (proj2 (String.eqb_neq k k')).
Qed.

Lemma dict_getitem_setitem_ne (k k' v : string) (d : dict) :
  k ≠ k' → dict_getitem k' (dict_setitem k v d) = dict_getitem k' d.
Proof.
  intros Hne. induction d as [|[k0 v0] d IH]; simpl.
  - by rewrite (proj2 (String.eqb_neq k' k)).
  - destruct (String.eqb_spec k k0) as [->|Hne0]; simpl.
    + by rewrite (proj2 (String.eqb_neq k' k0)).
    + by rewrite IH.
Qed.

Lemma dict_display_from_NoDup (ns : namespace) kvs (d0 d : dict) :
  dict_display_from ns kvs d0 = Ok d → NoDup (keys d0) → NoDup (keys d).
Proof.
  revert d0. induction kvs as [|[k tpl] kvs IH]; intros d0; simpl.
  - by intros [= ->].
  - destruct (fstring ns tpl) as [v|e]; [|done].
    intros H Hd0. eapply IH; [done|]. by apply dict_setitem_NoDup.
Qed.

Lemma dict_display_from_keep (ns : namespace) kvs (d0 d : dict) (k : string) :
  dict_display_from ns kvs d0 = Ok d → k ∉ kvs.*1 →
  dict_getitem k d = dict_getitem k d0.
Proof.
  revert d0. induction kvs as [|[k' tpl] kvs IH]; intros d0; simpl.
  - by intros [= ->].
  - destruct (fstring ns tpl) as [v|e]; [|done].
    intros H Hk. apply not_elem_of_cons in Hk as [Hne Hk].
    rewrite (IH _ H Hk). by apply dict_getitem_setitem_ne.
Qed.

Lemma dict_display_from_last (ns : namespace) pre post (d0 d : dict) (k tpl : string) :
  dict_display_from ns (pre ++ (k, tpl) :: post) d0 = Ok d → k ∉ post.*1 →
  ∃ v, fstring ns tpl = Ok v ∧ dict_getitem k d = Some v.
Proof.
  revert d0. induction pre as [|[k' tpl'] pre IH]; intros d0; simpl.
  - destruct (fstring ns tpl) as [v|e]; [|done].
    intros H Hk. exists v. split; [done|].
    rewrite (dict_display_from_keep _ _ _ _ _ H Hk).
    apply dict_getitem_setitem_eq.
  - destruct (fstring ns tpl') as [v'|e]; [|done]. apply IH.
Qed.

Lemma dict_display_from_total (ns : namespace) kvs (d0 : dict) :
  (∀ k tpl, (k, tpl) ∈ kvs → ∃ v, fstring ns tpl = Ok v) →
  ∃ d, dict_display_from ns kvs d0 = Ok d.
Proof.
  revert d0. induction kvs as [|[k tpl] kvs IH]; intros d0 Hok; simpl.
  - by eexists.
  - destruct (Hok k tpl) as [v ->]; [by left|].
    apply IH. intros k' tpl' Hin. apply (Hok k' tpl'). by right.
Qed.

(** ** The registry of the script *)

Lemma files_content_ok : files_content = Ok registry.
Proof. vm_compute. reflexivity. Qed.

Lemma registry_keys :
  keys registry = ["README.md"; "01_Requirements.md"; "02_Basic_Design.md";
                   "03_Data_Model.md"; "04_Tech_Architecture.md"].
Proof. vm_compute. reflexivity. Qed.

Lemma display_keys : files_content_display.*1 = keys registry.
Proof. vm_compute. reflexivity. Qed.

(** From here on the registry is used through the lemmas above and through
    evaluation only. *)
Opaque registry files_content.

(** ** The loop of lines 183-185 *)

Section Stored.
Context (E : Env).

Lemma stored_prefix (n : nat) its wrote r :
  stored E n its = (wrote, r) → wrote `prefix_of` its.
Proof.
  revert n wrote r. induction its as [|[k v] its IH]; intros n wrote r; simpl.
  - by intros [= <- <-].
  - destruct (write_error E n k); [intros [= <- <-]; apply prefix_nil|].
    destruct (stored E (S n) its) as [wrote' r'] eqn:Hs. intros [= <- <-].
    apply prefix_cons. by eapply IH.
Qed.

Lemma stored_ok (n : nat) its wrote u :
  stored E n its = (wrote, Ok u) →
  wrote = its ∧ ∀ i kv, its !! i = Some kv → write_error E (n + i) kv.1 = None.
Proof.
  revert n wrote. induction its as [|[k v] its IH]; intros n wrote; simpl.
  - intros [= <-]. split; [done|]. intros i kv Hi. by rewrite lookup_nil in Hi.
  - destruct (write_error E n k) eqn:Hw; [done|].
    destruct (stored E (S n) its) as [wrote' r'] eqn:Hs. intros [= <- ->].
    destruct (IH _ _ Hs) as [-> Hall]. split; [done|].
    intros [|i] kv Hi; simpl in Hi.
    + injection Hi as <-. by rewrite Nat.add_0_r.
    + rewrite Nat.add_succ_r. by apply (Hall i kv).
Qed.

Lemma stored_quiet (n : nat) its :
  (∀ i kv, its !! i = Some kv → write_error E (n + i) kv.1 = None) →
  stored E n its = (its, Ok tt).
Proof.
  revert n. induction its as [|[k v] its IH]; intros n Hall; simpl; [done|].
  pose proof (Hall 0 (k, v) eq_refl) as H0. rewrite Nat.add_0_r in H0.
  cbn [fst] in H0. rewrite H0, IH; [done|]. intros i kv Hi.
  specialize (Hall (S i) kv Hi). by rewrite Nat.add_succ_r in Hall.
Qed.

Lemma stored_raise (n : nat) its wrote e :
  stored E n its = (wrote, Raise e) →
  (∃ kv, its !! length wrote = Some kv ∧
         write_error E (n + length wrote) kv.1 = Some e) ∧
  (∀ i kv, wrote !! i = Some kv → write_error E (n + i) kv.1 = None).
Proof.
  revert n wrote. induction its as [|[k v] its IH]; intros n wrote; simpl; [done|].
  destruct (write_error E n k) eqn:Hw.
  - intros [= <- ->]. split.
    + exists (k, v). simpl. by rewrite Nat.add_0_r.
    + intros i kv Hi. by rewrite lookup_nil in Hi.
  - destruct (stored E (S n) its) as [wrote' r'] eqn:Hs. intros [= <- ->].
    destruct (IH _ _ Hs) as [(kv & Hkv & He) Hall]. split.
    + exists kv. simpl. by rewrite Nat.add_succ_r.
    + intros [|i] kv' Hi; simpl in Hi.
      * injection Hi as <-. by rewrite Nat.add_0_r.
      * rewrite Nat.add_succ_r. by apply (Hall i kv').
Qed.

Lemma stamp_filenames (n : nat) its :
  map zi_filename (stamp E n its) = map until_nul (keys its).
Proof.
  revert n. induction its as [|[k v] its IH]; intros n; [done|].
  simpl. f_equal. apply IH.
Qed.

Lemma stamp_entries (n : nat) its :
  map (fun z => (zi_filename z, zi_data z)) (stamp E n its)
  = map (fun kv => (until_nul kv.1, encode_utf8 kv.2)) its.
Proof.
  revert n. induction its as [|[k v] its IH]; intros n; [done|].
  simpl. f_equal. apply IH.
Qed.

Lemma stamp_stored (n : nat) its :
  Forall (fun z => zi_compress_type z = ZIP_STORED) (stamp E n its).
Proof.
  revert n. induction its as [|[k v] its IH]; intros n; simpl; [done|].
  constructor; [done|apply IH].
Qed.

Lemma stamp_times (n : nat) its :
  map zi_date_time (stamp E n its) = map (fun i => localtime E (n + i)) (seq 0 (length its)).
Proof.
  revert n. induction its as [|[k v] its IH]; intros n; [done|].
  simpl. rewrite Nat.add_0_r. f_equal. rewrite IH, <- seq_shift, map_map.
  apply map_ext. intros i. by rewrite Nat.add_succ_r.
Qed.

End Stored.

Lemma world_eta (w : World) : mkWorld (fs w) (stdout w) = w.
Proof. by destruct w. Qed.

Lemma zip_on_disk_eta (f : ZipOnDisk) : mkZipOnDisk (records f) (directory f) = f.
Proof. by destruct f. Qed.

Section Emit.
Context (E : Env).

Lemma on_disk_lookup (zipf : ZipFile) (w : World) (f : ZipOnDisk) :
  fs w !! zf_filename zipf = Some f → on_disk zipf w = f.
Proof. unfold on_disk. by intros ->. Qed.

Lemma writestr_outcome (zipf : ZipFile) (k v : string) (w : World)
    (f : ZipOnDisk) :
  fs w !! zf_filename zipf = Some f →
  writestr E zipf k v w =
    match write_error E (length (records f)) k with
    | Some e => (w, Raise e)
    | None =>
        (mkWorld
           (<[zf_filename zipf :=
                mkZipOnDisk
                  (records f ++ [mkZipInfo (until_nul k) (localtime E (length (records f)))
                                   (zf_compression zipf) (encode_utf8 v)])
                  (directory f)]> (fs w))
           (stdout w), Ok tt)
    end.
Proof.
  intros Hf. unfold writestr, write_error. rewrite (on_disk_lookup _ _ _ Hf).
  cbn [zi_filename]. by destruct (until_nul k).
Qed.

Lemma for_items_stored (ns : namespace) (zipf : ZipFile) its (w : World)
    (f : ZipOnDisk) :
  fs w !! zf_filename zipf = Some f →
  zf_compression zipf = ZIP_STORED →
  for_items E ns zipf its w =
    (mkWorld
       (<[zf_filename zipf :=
            mkZipOnDisk
              (records f ++ stamp E (length (records f)) (stored E (length (records f)) its).1)
              (directory f)]> (fs w))
       (stdout w ++ map (fun kv => progress_line kv.1) (stored E (length (records f)) its).1),
     result_map (fun _ => bind_items ns its) (stored E (length (records f)) its).2).
Proof.
  intros Hf Hc. revert ns w f Hf.
  assert (Hnil : ∀ w f (r : result namespace), fs w !! zf_filename zipf = Some f →
    (w, r) = (mkWorld (<[zf_filename zipf := mkZipOnDisk (records f ++ []) (directory f)]> (fs w))
                (stdout w ++ []), r)).
  { intros w f r Hf. rewrite !app_nil_r, zip_on_disk_eta, insert_id by done.
    by rewrite world_eta. }
  induction its as [|[k v] its IH]; intros ns w f Hf.
  - simpl. unfold ret. by apply Hnil.
  - cbn [for_items stored]. unfold bind at 1. rewrite (writestr_outcome _ _ _ _ _ Hf).
    destruct (write_error E (length (records f)) k) as [e|] eqn:Hw; [by apply Hnil|].
    unfold bind at 1. unfold print_f, bind at 1. unfold lift.
    rewrite fstring_added. unfold print. cbn [fs stdout].
    erewrite IH; last by (cbn [fs]; apply lookup_insert_eq).
    cbn [fs stdout records directory]. rewrite length_app, Nat.add_1_r. cbn [length].
    destruct (stored E (S (length (records f))) its) as [wrote r].
    cbn [fst snd stamp map]. rewrite insert_insert_eq, Hc, <- !app_assoc. done.
Qed.

(** ** Lines 180-187 *)

Lemma emit_outcome_correct (d : dict) (w : World) :
  emit E d w = emit_outcome E d w.
Proof.
  unfold emit, emit_outcome.
  unfold bind at 1. unfold print_f at 1. unfold bind at 1. unfold lift.
  rewrite fstring_creating. unfold print at 1.
  unfold bind at 1. unfold with_ZipFile_w, ZipFile_w. cbn [fs stdout].
  destruct (open_fault E zip_filename) as [e|]; [done|].
  erewrite for_items_stored; [|cbn [fs zf_filename]; apply lookup_insert_eq|done].
  cbn [fs stdout records directory zf_filename length app].
  destruct (stored E 0 (items d)) as [wrote r] eqn:Hs.
  unfold items in Hs. rewrite Hs. cbn [fst snd].
  unfold ZipFile_close, on_disk. cbn [zf_filename fs stdout].
  destruct (close_fault E zip_filename) as [e'|].
  - by rewrite insert_insert_eq.
  - rewrite lookup_insert_eq. cbn [default records]. rewrite !insert_insert_eq.
    destruct r as [[]|e]; [|done]. cbn [result_map].
    unfold print_f, bind, lift. rewrite fstring_done; [done|].
    by rewrite bind_items_zip_filename.
Qed.

End Emit.

Lemma run_outcome (E : Env) (fs0 : gmap string ZipOnDisk) :
  run E fs0 = emit_outcome E registry (boot fs0).
Proof.
  unfold run, main, bind, lift. rewrite files_content_ok. apply emit_outcome_correct.
Qed.

(** A run that returns normally met no fault, stored the whole registry
    and printed the three kinds of lines. *)
Lemma run_success (E : Env) (fs0 : gmap string ZipOnDisk) (w' : World) (u : unit) :
  run E fs0 = (w', Ok u) →
  open_fault E zip_filename = None ∧
  close_fault E zip_filename = None ∧
  (∀ i kv, registry !! i = Some kv → write_error E i kv.1 = None) ∧
  w' = mkWorld
         (<[zip_filename := mkZipOnDisk (stamp E 0 registry) (Some (stamp E 0 registry))]> fs0)
         (creating_line :: map (fun kv => progress_line kv.1) registry ++ [done_line]).
Proof.
  rewrite run_outcome. unfold emit_outcome, boot. cbn [fs stdout app].
  destruct (open_fault E zip_filename); [done|].
  destruct (stored E 0 registry) as [wrote r] eqn:Hs.
  destruct (close_fault E zip_filename); [done|].
  destruct r as [u'|e]; [|done].
  destruct (stored_ok _ _ _ _ _ Hs) as [-> Hall]. intros Heq.
  apply (f_equal fst) in Heq. cbn [fst] in Heq. subst w'. auto.
Qed.

Lemma run_quiet (E : Env) (fs0 : gmap string ZipOnDisk) :
  open_fault E zip_filename = None →
  close_fault E zip_filename = None →
  (∀ i, i < length registry → write_fault E i = None) →
  (run E fs0).2 = Ok tt.
Proof.
  intros Ho Hc Hw. rewrite run_outcome. unfold emit_outcome. rewrite Ho, Hc.
  rewrite stored_quiet; [done|].
  intros i kv Hi. simpl. unfold write_error.
  assert (Hlt : i < length registry) by (by eapply lookup_lt_Some).
  assert (Hne : until_nul kv.1 ≠ EmptyString).
  { apply (list_elem_of_lookup_2 _ _ _) in Hi. revert kv Hi.
    apply Forall_forall. vm_compute. repeat constructor; discriminate. }
  destruct (until_nul kv.1) as [|c s]; [by destruct Hne|]. by apply Hw.
Qed.

(** Any run in which the archive could be created, successful or not:
    [wrote] are the items stored before the loop stopped and [rs] is how it
    stopped. *)
Lemma run_opened (E : Env) (fs0 : gmap string ZipOnDisk) (w' : World) (r : result unit) :
  run E fs0 = (w', r) →
  open_fault E zip_filename = None →
  ∃ wrote rs,
    wrote `prefix_of` registry ∧
    (∀ i kv, wrote !! i = Some kv → write_error E i kv.1 = None) ∧
    match rs with
    | Ok _ => wrote = registry
    | Raise e => ∃ kv, registry !! length wrote = Some kv ∧
                       write_error E (length wrote) kv.1 = Some e
    end ∧
    fs w' = <[zip_filename :=
                mkZipOnDisk (stamp E 0 wrote)
                  (match close_fault E zip_filename with
                   | Some _ => None
                   | None => Some (stamp E 0 wrote)
                   end)]> fs0 ∧
    stdout w' = creating_line :: map (fun kv => progress_line kv.1) wrote
                  ++ (match r with Ok _ => [done_line] | Raise _ => [] end) ∧
    r = match close_fault E zip_filename with
        | Some e' => Raise e'
        | None => rs
        end.
Proof.
  rewrite run_outcome. unfold emit_outcome, boot. cbn [fs stdout app].
  intros Hrun Ho. rewrite Ho in Hrun.
  destruct (stored E 0 registry) as [wrote rs] eqn:Hs. exists wrote, rs.
  split; [by eapply stored_prefix|].
  assert (Hrs : (∀ i kv, wrote !! i = Some kv → write_error E i kv.1 = None) ∧
                match rs with
                | Ok _ => wrote = registry
                | Raise e => ∃ kv, registry !! length wrote = Some kv ∧
                                   write_error E (length wrote) kv.1 = Some e
                end).
  { destruct rs as [u|e].
    - destruct (stored_ok _ _ _ _ _ Hs) as [-> Hall]. auto.
    - destruct (stored_raise _ _ _ _ _ Hs) as [Hkv Hall]. auto. }
  destruct Hrs as [Hall Hrs]. clear Hs. split; [exact Hall|]. split; [exact Hrs|].
  clear Hall Hrs.
  destruct (close_fault E zip_filename) as [e'|].
  - apply pair_equal_spec in Hrun as [<- <-]. cbn [fs stdout]. rewrite app_nil_r. auto.
  - destruct rs as [[]|e]; apply pair_equal_spec in Hrun as [<- <-];
      cbn [fs stdout]; rewrite ?app_nil_r; auto.
Qed.

Lemma run_not_opened (E : Env) (fs0 : gmap string ZipOnDisk) (w' : World)
    (r : result unit) (e : exn) :
  run E fs0 = (w', r) →
  open_fault E zip_filename = Some e →
  r = Raise e ∧ fs w' = fs0 ∧ stdout w' = [creating_line].
Proof.
  rewrite run_outcome. unfold emit_outcome, boot. cbn [fs stdout app].
  intros Hrun Ho. rewrite Ho in Hrun. by apply pair_equal_spec in Hrun as [<- <-].
Qed.

Lemma registry_names_plain : map until_nul (keys registry) = keys registry.
Proof. vm_compute. reflexivity. Qed.

Lemma registry_names_nonempty (i : nat) (kv : string * string) :
  registry !! i = Some kv → until_nul kv.1 ≠ EmptyString.
Proof.
  intros Hi%list_elem_of_lookup_2. revert kv Hi. apply Forall_forall.
  vm_compute. repeat constructor; discriminate.
Qed.

Lemma write_error_registry (E : Env) (n i : nat) (kv : string * string) :
  registry !! i = Some kv → write_error E n kv.1 = write_fault E n.
Proof.
  intros Hne%registry_names_nonempty. unfold write_error.
  by destruct (until_nul kv.1).
Qed.

Lemma registry_keys_NoDup : NoDup (keys registry).
Proof. rewrite registry_keys. apply (bool_decide_unpack _). vm_compute. exact I. Qed.

Lemma prefix_keys (d1 d2 : dict) : d1 `prefix_of` d2 → keys d1 `prefix_of` keys d2.
Proof. intros [t ->]. exists (keys t). unfold keys. by rewrite fmap_app. Qed.

Lemma prefix_until_nul (l1 l2 : list string) :
  l1 `prefix_of` l2 → map until_nul l2 = l2 → map until_nul l1 = l1.
Proof.
  intros [t ->]. rewrite map_app. intros H.
  apply app_inj_1 in H as [H _]; [done|by rewrite length_map].
Qed.

Lemma progress_line_not_done (name : string) : progress_line name ≠ done_line.
Proof. discriminate. Qed.

Lemma done_not_creating : done_line ≠ creating_line.
Proof. discriminate. Qed.

Lemma done_not_in_progress (its : list (string * string)) :
  done_line ∉ map (fun kv => progress_line kv.1) its.
Proof.
  intros (kv & H & _)%list_elem_of_fmap. by apply (progress_line_not_done kv.1).
Qed.


(** The registry holds, under each name of the display, the intended text
    of its template. *)
Lemma registry_intended :
  registry = map (fun kt => (kt.1, intended_text kt.2)) files_content_display.
Proof. vm_compute. reflexivity. Qed.

(** * The claims *)

(** C1 (completeness).  After a run that returns normally, a reader of the
    output archive lists exactly the five members README.md,
    01_Requirements.md, 02_Basic_Design.md, 03_Data_Model.md and
    04_Tech_Architecture.md, once each and nothing else. *)
Theorem archive_completeness (E : Env) (fs0 : gmap string ZipOnDisk) (w' : World) :
  run E fs0 = (w', Ok tt) →
  namelist w' zip_filename =
    Some ["README.md"; "01_Requirements.md"; "02_Basic_Design.md";
          "03_Data_Model.md"; "04_Tech_Architecture.md"].
Proof.
  intros (_ & _ & _ & ->)%run_success.
  unfold namelist, archive. cbn [fs]. rewrite lookup_insert_eq. cbn.
  by rewrite stamp_filenames, registry_names_plain, registry_keys.
Qed.

Lemma archive_completeness_witness :
  run (quiet 0) ∅ = (quiet_world, Ok tt) ∧
  namelist quiet_world zip_filename =
    Some ["README.md"; "01_Requirements.md"; "02_Basic_Design.md";
          "03_Data_Model.md"; "04_Tech_Architecture.md"].
Proof.
  assert (H : run (quiet 0) ∅ = (quiet_world, Ok tt)) by (vm_compute; reflexivity).
  split; [exact H|]. exact (archive_completeness (quiet 0) ∅ quiet_world H).
Defined.

(** C4 (determinism).  Two runs that return normally, whatever their
    environments (clock, earlier content of the directory), leave archives
    with the same member names, the same bytes under each name and the same
    order of members. *)
Theorem determinism (E1 E2 : Env) (fs1 fs2 : gmap string ZipOnDisk) (w1 w2 : World) :
  run E1 fs1 = (w1, Ok tt) →
  run E2 fs2 = (w2, Ok tt) →
  is_Some (archive_entries w1 zip_filename) ∧
  archive_entries w1 zip_filename = archive_entries w2 zip_filename.
Proof.
  intros (_ & _ & _ & ->)%run_success (_ & _ & _ & ->)%run_success.
  unfold archive_entries, archive. cbn [fs]. rewrite !lookup_insert_eq. cbn.
  rewrite !stamp_entries. split; [by eexists|reflexivity].
Qed.

Lemma determinism_witness :
  run (quiet 0) ∅ = (quiet_world, Ok tt) ∧
  run (quiet 100) (fs quiet_world) = (second_world, Ok tt) ∧
  is_Some (archive_entries quiet_world zip_filename) ∧
  archive_entries quiet_world zip_filename = archive_entries second_world zip_filename.
Proof.
  assert (H1 : run (quiet 0) ∅ = (quiet_world, Ok tt)) by (vm_compute; reflexivity).
  assert (H2 : run (quiet 100) (fs quiet_world) = (second_world, Ok tt))
    by (vm_compute; reflexivity).
  split; [exact H1|]. split; [exact H2|].
  exact (determinism (quiet 0) (quiet 100) ∅ (fs quiet_world) quiet_world second_world H1 H2).
Defined.

(** C5 (insertion order).  Members are appended to the archive in the order
    in which the dict display defines them: of two names of the display, if
    the later one has been written then the earlier one was written before
    it, and after a run that returns normally both have been written.  This
    holds for every run that could create the archive, also one that stops
    on an error half-way. *)
Theorem insertion_order (E : Env) (fs0 : gmap string ZipOnDisk) (w' : World)
    (r : result unit) (f : ZipOnDisk) (i j : nat) (n1 n2 : string) :
  run E fs0 = (w', r) →
  open_fault E zip_filename = None →
  fs w' !! zip_filename = Some f →
  i < j →
  files_content_display.*1 !! i = Some n1 →
  files_content_display.*1 !! j = Some n2 →
  (r = Ok tt → n2 ∈ map zi_filename (records f)) ∧
  (∀ q, map zi_filename (records f) !! q = Some n2 →
        ∃ p, p < q ∧ map zi_filename (records f) !! p = Some n1).
Proof.
  intros Hrun Ho Hf Hij Hi Hj.
  destruct (run_opened _ _ _ _ Hrun Ho) as (wrote & rs & Hpre & _ & Hrs & Hfs & _ & Hr).
  clear Hrun. rewrite Hfs, lookup_insert_eq in Hf. injection Hf as <-. cbn [records].
  rewrite display_keys in Hi, Hj. apply prefix_keys in Hpre.
  rewrite stamp_filenames, (prefix_until_nul _ _ Hpre registry_names_plain).
  split.
  - intros ->. destruct (close_fault E zip_filename); [done|]. subst rs wrote.
    by eapply list_elem_of_lookup_2.
  - intros q Hq.
    assert (Hq' : keys registry !! q = Some n2) by (by eapply prefix_lookup_Some).
    assert (q = j) as -> by (by eapply NoDup_lookup; [apply registry_keys_NoDup|..]).
    exists i. split; [done|].
    apply lookup_lt_Some in Hq. destruct Hpre as [t Ht]. rewrite Ht in Hi.
    rewrite lookup_app_l in Hi by lia. done.
Qed.

Lemma insertion_order_witness :
  run (quiet 0) ∅ = (quiet_world, Ok tt) ∧
  open_fault (quiet 0) zip_filename = None ∧
  fs quiet_world !! zip_filename
    = Some (mkZipOnDisk (stamp (quiet 0) 0 registry) (Some (stamp (quiet 0) 0 registry))) ∧
  0 < 3 ∧
  files_content_display.*1 !! 0 = Some "README.md" ∧
  files_content_display.*1 !! 3 = Some "03_Data_Model.md" ∧
  (Ok tt = Ok tt →
     "03_Data_Model.md" ∈ map zi_filename (stamp (quiet 0) 0 registry)) ∧
  (∀ q, map zi_filename (stamp (quiet 0) 0 registry) !! q = Some "03_Data_Model.md" →
        ∃ p, p < q ∧ map zi_filename (stamp (quiet 0) 0 registry) !! p = Some "README.md").
Proof.
  assert (H1 : run (quiet 0) ∅ = (quiet_world, Ok tt)) by (vm_compute; reflexivity).
  assert (H2 : open_fault (quiet 0) zip_filename = None) by reflexivity.
  assert (H3 : fs quiet_world !! zip_filename
    = Some (mkZipOnDisk (stamp (quiet 0) 0 registry) (Some (stamp (quiet 0) 0 registry))))
    by (vm_compute; reflexivity).
  assert (H4 : 0 < 3) by lia.
  assert (H5 : files_content_display.*1 !! 0 = Some "README.md") by reflexivity.
  assert (H6 : files_content_display.*1 !! 3 = Some "03_Data_Model.md") by reflexivity.
  repeat (split; [assumption|]).
  exact (insertion_order (quiet 0) ∅ _ _ _ 0 3 _ _ H1 H2 H3 H4 H5 H6).
Defined.

(** C6 (regeneration).  Whatever an earlier run left at the output path, a
    run that returns normally leaves there an archive whose members are the
    five it stored itself, stamped with its own clock readings, and no member
    of the earlier archive. *)
Theorem regeneration (E1 E2 : Env) (fs0 : gmap string ZipOnDisk) (w1 w2 : World)
    (r1 : result unit) :
  run E1 fs0 = (w1, r1) →
  run E2 (fs w1) = (w2, Ok tt) →
  fs w2 !! zip_filename
    = Some (mkZipOnDisk (stamp E2 0 registry) (Some (stamp E2 0 registry))) ∧
  length (stamp E2 0 registry) = 5 ∧
  map zi_date_time (stamp E2 0 registry) = map (localtime E2) [0; 1; 2; 3; 4].
Proof.
  intros _ (_ & _ & _ & ->)%run_success. cbn [fs]. rewrite lookup_insert_eq.
  split; [reflexivity|]. split; [reflexivity|].
  rewrite stamp_times. reflexivity.
Qed.

Lemma regeneration_witness :
  run (quiet 0) ∅ = (quiet_world, Ok tt) ∧
  run (quiet 100) (fs quiet_world) = (second_world, Ok tt) ∧
  fs second_world !! zip_filename
    = Some (mkZipOnDisk (stamp (quiet 100) 0 registry) (Some (stamp (quiet 100) 0 registry))) ∧
  length (stamp (quiet 100) 0 registry) = 5 ∧
  map zi_date_time (stamp (quiet 100) 0 registry) = map (localtime (quiet 100)) [0; 1; 2; 3; 4].
Proof.
  assert (H1 : run (quiet 0) ∅ = (quiet_world, Ok tt)) by (vm_compute; reflexivity).
  assert (H2 : run (quiet 100) (fs quiet_world) = (second_world, Ok tt))
    by (vm_compute; reflexivity).
  split; [exact H1|]. split; [exact H2|].
  exact (regeneration (quiet 0) (quiet 100) ∅ quiet_world second_world (Ok tt) H1 H2).
Defined.

(** C7 (failure propagation).  A run whose archive cannot be created raises
    that error and leaves the directory as it found it.  A run in which
    storing a member fails raises that error (or the error of closing the
    archive, when closing fails too); a run in which closing fails raises
    that error.  In none of these is the completion line printed: the
    completion line is on stdout only when the run returned normally, every
    one of the five members has been stored and the archive has been closed.
    Nothing is said here about the file that a run leaves when storing or
    closing fails: what it tells the caller is the raised error and the
    missing completion line. *)
Theorem failure_propagation (E : Env) (fs0 : gmap string ZipOnDisk) (w' : World)
    (r : result unit) :
  run E fs0 = (w', r) →
  (∀ e, open_fault E zip_filename = Some e → r = Raise e ∧ fs w' = fs0) ∧
  (open_fault E zip_filename = None →
   ∀ n e, n < length registry → write_fault E n = Some e →
          (∀ m, m < n → write_fault E m = None) →
          r = Raise e ∨ ∃ e', close_fault E zip_filename = Some e' ∧ r = Raise e') ∧
  (open_fault E zip_filename = None →
   ∀ e, close_fault E zip_filename = Some e → r = Raise e) ∧
  (r ≠ Ok tt → done_line ∉ stdout w') ∧
  (done_line ∈ stdout w' →
     r = Ok tt ∧
     archive w' zip_filename = Some (stamp E 0 registry) ∧
     fs w' !! zip_filename ≫= (fun f => Some (records f)) = Some (stamp E 0 registry) ∧
     map zi_filename (stamp E 0 registry) = keys registry).
Proof.
  intros Hrun. destruct (open_fault E zip_filename) as [e0|] eqn:Ho.
  - destruct (run_not_opened _ _ _ _ _ Hrun Ho) as (-> & Hfs & Hout). clear Hrun.
    assert (Hnot : done_line ∉ stdout w').
    { rewrite Hout. intros H%list_elem_of_singleton. by apply done_not_creating. }
    split_and!; try done. by intros e [= <-].
  - destruct (run_opened _ _ _ _ Hrun Ho) as (wrote & rs & Hpre & Hall & Hrs & Hfs & Hout & Hr).
    clear Hrun.
    split_and!; [done| | | |].
    + intros _ n e Hn Hw Hbefore.
      destruct (close_fault E zip_filename) as [e'|]; [right; by exists e'|left].
      subst r. destruct rs as [u|e1].
      * subst wrote.
        destruct (lookup_lt_is_Some_2 registry n Hn) as [kv Hkv].
        specialize (Hall n kv Hkv). rewrite (write_error_registry _ _ _ _ Hkv) in Hall.
        congruence.
      * destruct Hrs as (kv & Hkv & He).
        rewrite (write_error_registry _ _ _ _ Hkv) in He.
        destruct (Nat.lt_trichotomy (length wrote) n) as [Hlt|[Heq|Hgt]].
        -- rewrite (Hbefore _ Hlt) in He. done.
        -- rewrite Heq, Hw in He. congruence.
        -- destruct (lookup_lt_is_Some_2 wrote n Hgt) as [kv' Hkv'].
           pose proof (Hall n kv' Hkv') as Hn'.
           rewrite (write_error_registry _ _ _ _ (prefix_lookup_Some _ _ _ _ Hkv' Hpre)) in Hn'.
           congruence.
    + intros _ e Hc. by rewrite Hc in Hr.
    + intros Hne Hin. rewrite Hout in Hin. destruct r as [[]|e]; [done|].
      rewrite app_nil_r in Hin. apply elem_of_cons in Hin as [Hin|Hin];
        [by apply done_not_creating|].
      by apply done_not_in_progress in Hin.
    + intros Hin. destruct r as [[]|e].
      * destruct (close_fault E zip_filename); [done|]. subst rs wrote.
        unfold archive. rewrite Hfs, lookup_insert_eq. cbn.
        by rewrite stamp_filenames, registry_names_plain.
      * rewrite Hout, app_nil_r in Hin.
        apply elem_of_cons in Hin as [Hin|Hin]; [by apply done_not_creating in Hin|].
        by apply done_not_in_progress in Hin.
Qed.

Lemma failure_propagation_witness :
  run read_only ∅ = (read_only_world, Raise EACCES) ∧
  fs read_only_world = ∅ ∧
  (done_line ∉ stdout read_only_world) ∧
  run disk_full ∅ = (disk_full_world, Raise ENOSPC) ∧
  (done_line ∉ stdout disk_full_world).
Proof.
  assert (H1 : run read_only ∅ = (read_only_world, Raise EACCES))
    by (vm_compute; reflexivity).
  assert (H2 : run disk_full ∅ = (disk_full_world, Raise ENOSPC))
    by (vm_compute; reflexivity).
  destruct (failure_propagation read_only ∅ read_only_world (Raise EACCES) H1)
    as (Ho & _ & _ & Hn & _).
  destruct (failure_propagation disk_full ∅ disk_full_world (Raise ENOSPC) H2)
    as (_ & _ & _ & Hn' & _).
  split; [exact H1|]. split; [exact (proj2 (Ho EACCES eq_refl))|].
  split; [apply Hn; discriminate|]. split; [exact H2|]. apply Hn'; discriminate.
Defined.

(** When the archive cannot be created nothing is left behind. *)
Example read_only_leaves_nothing :
  fs read_only_world !! zip_filename = None ∧
  stdout read_only_world = [creating_line].
Proof. split; vm_compute; reflexivity. Qed.

(** C8, as stated, fails: a run that returns normally prints a first line,
    [Creating Local_Sync_Board_Cloud_Docs.zip...], which is neither a
    progress line of a member nor the completion line, so stdout is not
    "one line per member plus the confirmation". *)
Lemma stdout_has_creating_line :
  run (quiet 0) ∅ = (quiet_world, Ok tt) ∧
  creating_line ∈ stdout quiet_world ∧
  creating_line ≠ done_line ∧
  (∀ name, creating_line ≠ progress_line name) ∧
  stdout quiet_world ≠ map progress_line (keys registry) ++ [done_line].
Proof.
  split; [vm_compute; reflexivity|].
  split; [vm_compute; left|].
  split; [discriminate|]. split; [discriminate|].
  vm_compute. discriminate.
Qed.

(** C8 (amended).  After a run that returns normally stdout holds exactly
    seven lines: the announcement [Creating <archive>...], one progress line
    per member in the order of the registry, and the completion line naming
    the archive. *)
Theorem stdout_lines (E : Env) (fs0 : gmap string ZipOnDisk) (w' : World) :
  run E fs0 = (w', Ok tt) →
  stdout w' =
    ["Creating Local_Sync_Board_Cloud_Docs.zip...";
     " - Added: README.md";
     " - Added: 01_Requirements.md";
     " - Added: 02_Basic_Design.md";
     " - Added: 03_Data_Model.md";
     " - Added: 04_Tech_Architecture.md";
     "Done! 'Local_Sync_Board_Cloud_Docs.zip' has been created."] ∧
  stdout w' = creating_line :: map progress_line (keys registry) ++ [done_line].
Proof.
  intros (_ & _ & _ & ->)%run_success. cbn [stdout].
  split; [vm_compute; reflexivity|].
  unfold keys. by rewrite <- list_fmap_compose.
Qed.

Lemma stdout_lines_witness :
  run (quiet 0) ∅ = (quiet_world, Ok tt) ∧
  stdout quiet_world =
    ["Creating Local_Sync_Board_Cloud_Docs.zip...";
     " - Added: README.md";
     " - Added: 01_Requirements.md";
     " - Added: 02_Basic_Design.md";
     " - Added: 03_Data_Model.md";
     " - Added: 04_Tech_Architecture.md";
     "Done! 'Local_Sync_Board_Cloud_Docs.zip' has been created."].
Proof.
  assert (H : run (quiet 0) ∅ = (quiet_world, Ok tt)) by (vm_compute; reflexivity).
  split; [exact H|]. exact (proj1 (stdout_lines (quiet 0) ∅ quiet_world H)).
Defined.

(** C9, as stated, fails: the archive is opened without a compression
    argument, so every member is stored with method [ZIP_STORED], that is
    uncompressed: none of the five members is a compressed entry. *)
Lemma members_not_compressed :
  run (quiet 0) ∅ = (quiet_world, Ok tt) ∧
  ∃ zs, archive quiet_world zip_filename = Some zs ∧
        length zs = 5 ∧
        Forall (fun z => is_compressed z = false ∧ zi_compress_type z ≠ ZIP_DEFLATED) zs.
Proof.
  split; [vm_compute; reflexivity|].
  eexists. split; [vm_compute; reflexivity|]. split; [reflexivity|].
  repeat (constructor; [split; [reflexivity|discriminate]|]). constructor.
Qed.

(** C9 (amended).  After a run that returns normally the one output file is
    a ZIP archive in which every item of the registry is a member of its
    own, under its own name, holding the UTF-8 bytes of its text; the
    members are stored uncompressed (method [ZIP_STORED]). *)
Theorem members_stored (E : Env) (fs0 : gmap string ZipOnDisk) (w' : World) :
  run E fs0 = (w', Ok tt) →
  ∃ zs, archive w' zip_filename = Some zs ∧
        map (fun z => (zi_filename z, zi_data z)) zs
          = map (fun kv => (kv.1, list_byte_of_string kv.2)) registry ∧
        NoDup (map zi_filename zs) ∧
        Forall (fun z => zi_compress_type z = ZIP_STORED ∧ is_compressed z = false) zs ∧
        (∀ file, file ≠ zip_filename → fs w' !! file = fs0 !! file).
Proof.
  intros (_ & _ & _ & ->)%run_success. exists (stamp E 0 registry).
  unfold archive. cbn [fs]. rewrite lookup_insert_eq. split; [done|].
  split.
  { rewrite stamp_entries. apply map_ext_in. intros [k v] Hin. cbn [fst snd]. f_equal.
    apply list_elem_of_In, list_elem_of_lookup in Hin as [i Hi].
    assert (Hk : keys registry !! i = Some k) by (unfold keys; by rewrite list_lookup_fmap, Hi).
    pose proof registry_names_plain as Hp.
    apply (f_equal (fun l => l !! i)) in Hp.
    rewrite Hk in Hp. change (map until_nul (keys registry)) with (until_nul <$> keys registry) in Hp.
    rewrite list_lookup_fmap, Hk in Hp. by injection Hp. }
  split.
  { rewrite stamp_filenames, registry_names_plain. apply registry_keys_NoDup. }
  split.
  { eapply Forall_impl; [apply stamp_stored|]. intros z Hz. split; [done|].
    unfold is_compressed. by rewrite Hz. }
  intros file Hne. by rewrite lookup_insert_ne.
Qed.

Lemma members_stored_witness :
  run (quiet 0) ∅ = (quiet_world, Ok tt) ∧
  ∃ zs, archive quiet_world zip_filename = Some zs ∧
        map (fun z => (zi_filename z, zi_data z)) zs
          = map (fun kv => (kv.1, list_byte_of_string kv.2)) registry ∧
        NoDup (map zi_filename zs) ∧
        Forall (fun z => zi_compress_type z = ZIP_STORED ∧ is_compressed z = false) zs ∧
        (∀ file, file ≠ zip_filename → fs quiet_world !! file = (∅ : gmap string ZipOnDisk) !! file).
Proof.
  assert (H : run (quiet 0) ∅ = (quiet_world, Ok tt)) by (vm_compute; reflexivity).
  split; [exact H|]. exact (members_stored (quiet 0) ∅ quiet_world H).
Defined.

(** C2, as stated, fails: a dict display that repeats a name is built
    without any error, the later text replaces the earlier one under the one
    key, and the script goes on to create the archive. *)
Lemma duplicate_name_overwrites :
  dict_display globals_5 duplicate_display = Ok [("README.md", "second")] ∧
  (emit (quiet 0) [("README.md", "second")] (boot ∅)).2 = Ok tt ∧
  namelist (emit (quiet 0) [("README.md", "second")] (boot ∅)).1 zip_filename
    = Some ["README.md"].
Proof. split; [|split]; vm_compute; reflexivity. Qed.

(** C2 (amended).  The registry is built by a dict display, which has no
    check for repeated names: whenever every text of the display evaluates,
    the display is built; its keys are pairwise distinct, and under each
    name it holds the text of the last item of that name.  The five names of
    the script are pairwise distinct, so no document of the script is
    replaced. *)
Theorem registry_names_unique (ns : namespace) (kvs : list (string * string)) :
  (∀ k tpl, (k, tpl) ∈ kvs → ∃ v, fstring ns tpl = Ok v) →
  ∃ d, dict_display ns kvs = Ok d ∧
       NoDup (keys d) ∧
       (∀ pre k tpl post, kvs = pre ++ (k, tpl) :: post → k ∉ post.*1 →
          ∃ v, fstring ns tpl = Ok v ∧ dict_getitem k d = Some v) ∧
       NoDup (files_content_display.*1).
Proof.
  intros Hok. destruct (dict_display_from_total ns kvs [] Hok) as [d Hd].
  exists d. split; [exact Hd|]. split.
  { eapply dict_display_from_NoDup; [exact Hd|constructor]. }
  split.
  { intros pre k tpl post -> Hk. by eapply dict_display_from_last. }
  rewrite display_keys. apply registry_keys_NoDup.
Qed.

Lemma registry_names_unique_witness :
  (∀ k tpl, (k, tpl) ∈ duplicate_display → ∃ v, fstring globals_5 tpl = Ok v) ∧
  ∃ d, dict_display globals_5 duplicate_display = Ok d ∧
       NoDup (keys d) ∧
       (∀ pre k tpl post, duplicate_display = pre ++ (k, tpl) :: post → k ∉ post.*1 →
          ∃ v, fstring globals_5 tpl = Ok v ∧ dict_getitem k d = Some v) ∧
       NoDup (files_content_display.*1).
Proof.
  assert (H : ∀ k tpl, (k, tpl) ∈ duplicate_display → ∃ v, fstring globals_5 tpl = Ok v).
  { intros k tpl Hin. unfold duplicate_display in Hin.
    apply elem_of_cons in Hin as [[= -> ->]|Hin]; [by eexists|].
    apply elem_of_cons in Hin as [[= -> ->]|Hin]; [by eexists|].
    by apply not_elem_of_nil in Hin. }
  split; [exact H|]. exact (registry_names_unique globals_5 duplicate_display H).
Defined.

(** C3 (content fidelity).  After a run that returns normally every member
    holds the UTF-8 bytes of the intended text of its document: the text of
    the display in which each token [{BQ}] has become three back-quotes (and
    each doubled brace one brace).  Read back as text, the bytes stored under
    each name are the value of that document's f-string, that is the text of
    the registry; they contain neither the token nor the name BQ, and as
    many three-back-quote fences as the source has tokens.  The bytes stored
    under 03_Data_Model.md hold exactly two fenced blocks, both tagged json
    and both a JSON object in single braces: the first shows the keys
    variables and actions, the second the keys user_uuid_A and
    user_uuid_B. *)
Theorem content_fidelity (E : Env) (fs0 : gmap string ZipOnDisk) (w' : World) :
  run E fs0 = (w', Ok tt) →
  ∃ entries,
    archive_entries w' zip_filename = Some entries ∧
    entries = map (fun kt => (kt.1, list_byte_of_string (intended_text kt.2)))
                files_content_display ∧
    registry = map (fun e => (e.1, string_of_list_byte e.2)) entries ∧
    Forall2 (fun kt e =>
               e.1 = kt.1 ∧
               fstring globals_5 kt.2 = Ok (string_of_list_byte e.2) ∧
               string_of_list_byte e.2 = intended_text kt.2 ∧
               count_sub "{BQ}" (string_of_list_byte e.2) = 0 ∧
               count_sub "BQ" (string_of_list_byte e.2) = 0 ∧
               count_sub "```" (string_of_list_byte e.2) = count_sub "{BQ}" kt.2)
            files_content_display entries ∧
    ∃ data b1 b2,
      entries !! 3 = Some ("03_Data_Model.md", data) ∧
      count_sub "```" (string_of_list_byte data) = 4 ∧
      fenced_blocks (string_of_list_byte data) = [("json", b1); ("json", b2)] ∧
      head b1 = Some "{" ∧ last b1 = Some "}" ∧
      head b2 = Some "{" ∧ last b2 = Some "}" ∧
      contains (Q +:+ "variables" +:+ Q +:+ ": [") (unlines b1) = true ∧
      contains (Q +:+ "actions" +:+ Q +:+ ": [") (unlines b1) = true ∧
      contains (Q +:+ "user_uuid_A" +:+ Q +:+ ": {") (unlines b2) = true ∧
      contains (Q +:+ "user_uuid_B" +:+ Q +:+ ": {") (unlines b2) = true.
Proof.
  intros (_ & _ & _ & ->)%run_success.
  exists (map (fun kt => (kt.1, list_byte_of_string (intended_text kt.2)))
            files_content_display).
  split.
  { unfold archive_entries, archive. cbn [fs]. rewrite lookup_insert_eq. cbn.
    rewrite stamp_entries. vm_compute. reflexivity. }
  split; [reflexivity|].
  split; [vm_compute; reflexivity|].
  split.
  { apply Forall2_fmap_r, Forall_Forall2_diag. unfold files_content_display.
    repeat (apply Forall_cons; split;
            [cbn [fst snd]; repeat split; vm_compute; reflexivity|]).
    apply Forall_nil_2. }
  eexists _, _, _. split; [vm_compute; reflexivity|].
  split; [vm_compute; reflexivity|].
  split; [vm_compute; reflexivity|].
  repeat split; vm_compute; reflexivity.
Qed.

Lemma content_fidelity_witness :
  run (quiet 0) ∅ = (quiet_world, Ok tt) ∧
  archive_entries quiet_world zip_filename
    = Some (map (fun kt => (kt.1, list_byte_of_string (intended_text kt.2)))
              files_content_display).
Proof.
  assert (H : run (quiet 0) ∅ = (quiet_world, Ok tt)) by (vm_compute; reflexivity).
  split; [exact H|].
  destruct (content_fidelity (quiet 0) ∅ quiet_world H) as (entries & He & -> & _).
  exact He.
Defined.

(** C10 (flat names).  No name of the registry contains a path separator,
    and after a run that returns normally the five member names listed by a
    reader contain none either: every member sits at the root of the
    archive. *)
Theorem flat_names (E : Env) (fs0 : gmap string ZipOnDisk) (w' : World) :
  run E fs0 = (w', Ok tt) →
  Forall (fun name => has_path_sep name = false) (files_content_display.*1) ∧
  Forall (fun name => has_path_sep name = false) (keys registry) ∧
  ∃ names, namelist w' zip_filename = Some names ∧
           length names = 5 ∧
           Forall (fun name => has_path_sep name = false) names.
Proof.
  intros (_ & _ & _ & ->)%run_success.
  assert (Hflat : Forall (fun name => has_path_sep name = false) (keys registry)).
  { rewrite registry_keys. repeat constructor. }
  split; [by rewrite display_keys|]. split; [done|].
  exists (keys registry). unfold namelist, archive. cbn [fs].
  rewrite lookup_insert_eq. cbn. rewrite stamp_filenames, registry_names_plain.
  split; [done|]. split; [by rewrite registry_keys|done].
Qed.

Lemma flat_names_witness :
  run (quiet 0) ∅ = (quiet_world, Ok tt) ∧
  Forall (fun name => has_path_sep name = false) (files_content_display.*1) ∧
  Forall (fun name => has_path_sep name = false) (keys registry) ∧
  ∃ names, namelist quiet_world zip_filename = Some names ∧
           length names = 5 ∧
           Forall (fun name => has_path_sep name = false) names.
Proof.
  assert (H : run (quiet 0) ∅ = (quiet_world, Ok tt)) by (vm_compute; reflexivity).
  split; [exact H|]. exact (flat_names (quiet 0) ∅ quiet_world H).
Defined.

(** * Further properties of the script *)

(** ** Dict displays without repeated names *)

Lemma dict_setitem_fresh (k v : string) (d : dict) :
  k ∉ keys d → dict_setitem k v d = d ++ [(k, v)].
Proof.
  unfold keys. induction d as [|[k' v'] d IH]; [done|].
  rewrite fmap_cons. cbn [fst dict_setitem app]. intros [Hne Hin]%not_elem_of_cons.
  rewrite (proj2 (String.eqb_neq k k') Hne). by rewrite IH.
Qed.

Lemma dict_display_from_fresh (ns : namespace) kvs (d0 d : dict) :
  dict_display_from ns kvs d0 = Ok d →
  NoDup (keys d0 ++ kvs.*1) →
  ∃ d1, d = d0 ++ d1 ∧
        Forall2 (fun kt kv => kv.1 = kt.1 ∧ fstring ns kt.2 = Ok kv.2) kvs d1.
Proof.
  revert d0. induction kvs as [|[k tpl] kvs IH]; intros d0; cbn [dict_display_from].
  - intros [= <-] _. exists []. by rewrite app_nil_r.
  - destruct (fstring ns tpl) as [v|e] eqn:Hv; [|done].
    rewrite fmap_cons. cbn [fst]. intros Hd Hnd.
    assert (Hk : k ∉ keys d0).
    { apply NoDup_app in Hnd as (_ & Hdisj & _). intros Hin. apply (Hdisj k Hin). by left. }
    rewrite (dict_setitem_fresh k v d0 Hk) in Hd.
    destruct (IH _ Hd) as (d1 & -> & Hall).
    { unfold keys. rewrite fmap_app, <- app_assoc. exact Hnd. }
    exists ((k, v) :: d1). split; [by rewrite <- app_assoc|].
    by constructor.
Qed.

(** X9.  A dict display in which no name is repeated, like the one of the
    script, builds the registry item by item: the registry has the names of
    the display in the order of the source, and under each name the value of
    that item's f-string. *)
Theorem display_without_repeats (ns : namespace) (kvs : list (string * string))
    (d : dict) :
  NoDup (kvs.*1) →
  dict_display ns kvs = Ok d →
  keys d = kvs.*1 ∧
  Forall2 (fun kt kv => kv.1 = kt.1 ∧ fstring ns kt.2 = Ok kv.2) kvs d.
Proof.
  intros Hnd Hd. destruct (dict_display_from_fresh ns kvs [] d Hd Hnd) as (d1 & -> & Hall).
  cbn [app]. split; [|exact Hall].
  unfold keys. clear Hd Hnd. induction Hall as [|kt kv kvs d1 [Hk _] _ IH]; [done|].
  rewrite !fmap_cons. by rewrite Hk, IH.
Qed.

Lemma display_without_repeats_witness :
  NoDup (files_content_display.*1) ∧
  dict_display globals_5 files_content_display = Ok registry ∧
  keys registry = files_content_display.*1.
Proof.
  assert (H1 : NoDup (files_content_display.*1))
    by (apply (bool_decide_unpack _); vm_compute; exact I).
  assert (H2 : dict_display globals_5 files_content_display = Ok registry)
    by (vm_compute; reflexivity).
  split; [exact H1|]. split; [exact H2|].
  exact (proj1 (display_without_repeats globals_5 files_content_display registry H1 H2)).
Defined.
